(** * A shallow embedding of the vinxi proxy core and its management API

    Sources: src/rule/rules.go (rule registry), src/manager/api.go and
    src/unnamed/part_000 (JSON serialization and controllers of the manager
    package), src/vinxi.go (proxy construction and ServeHTTP).

    Go panics are modelled through the [result] type: a computation either
    returns normally ([Ok]) or panics with a message ([Panic]). *)

From stdpp Require Import base gmap strings list fin_maps.
From Stdlib Require Import Permutation Ascii.

Open Scope string_scope.

(** ** Shared runtime notions *)

(** Outcome of a Go computation that may panic. *)
Inductive result (A : Type) : Type :=
| Ok (a : A)
| Panic (msg : string).
Arguments Ok {A} a.
Arguments Panic {A} msg.

Definition bind {A B} (m : result A) (k : A -> result B) : result B :=
  match m with
  | Ok a => k a
  | Panic s => Panic s
  end.

Notation "'let!' x := m 'in' k" := (bind m (fun x => k))
  (at level 200, x name, m at level 100, k at level 200).

(** [config.Config]: a JSON object of configuration values. The values are
    kept as their textual form; nothing below inspects them. *)
Definition Config := list (string * string).

(** The message of Go's runtime panic on a call through a nil func value. *)
Definition nil_deref_msg : string :=
  "runtime error: invalid memory address or nil pointer dereference".

(** ** Package rule: src/rule/rules.go *)
Module Rule.

(** The [rule.Rule] interface, through its observable accessors. *)
Record Rule := mkRule {
  rule_id : string;
  rule_name : string;
  rule_description : string;
  rule_config : Config;
}.

(** [type Factory func(config.Config) Rule]; a func value may be nil,
    hence [option]. *)
Definition Factory := Config -> Rule.

(** [type Field struct { Name, Type, Description string; Mandatory bool; Example string }] *)
Record Field := mkField {
  field_Name : string;
  field_Type : string;
  field_Description : string;
  field_Mandatory : bool;
  field_Example : string;
}.

(** [type Params []Field] *)
Definition Params := list Field.

(** [type Info struct { Name, Description string; Params Params; Factory Factory }] *)
Record Info := mkInfo {
  Name : string;
  Description : string;
  Params_of : Params;
  Factory_of : option Factory;
}.

(** The zero value of [Info], returned by a Go map read of a missing key. *)
Definition zero_Info : Info := mkInfo "" "" [] None.

(** [var Rules = make(map[string]Info)]: the global store, passed explicitly. *)
Abbreviation Rules := (gmap string Info).

(** [func Register(rule Info) { Rules[rule.Name] = rule }] *)
Definition Register (rules : gmap string Info) (r : Info) : gmap string Info :=
  <[Name r := r]> rules.

(** [func Exists(name string) bool { _, ok := Rules[name]; return ok }] *)
Definition Exists (rules : gmap string Info) (name : string) : bool :=
  match rules !! name with
  | Some _ => true
  | None => false
  end.

(** [func Get(name string) Factory]: the factory, or nil. *)
Definition Get (rules : gmap string Info) (name : string) : option Factory :=
  match rules !! name with
  | Some r => Factory_of r
  | None => None
  end.

(** [func GetInfo(name string) Info { return Rules[name] }] *)
Definition GetInfo (rules : gmap string Info) (name : string) : Info :=
  match rules !! name with
  | Some r => r
  | None => zero_Info
  end.

(** [func Init(name string, opts config.Config) Rule]: panics on an unknown
    name; calling a nil factory is Go's nil-func runtime panic. *)
Definition Init (rules : gmap string Info) (name : string) (opts : Config)
  : result Rule :=
  if negb (Exists rules name) then
    Panic ("vinxi: rule '" ++ name ++ "' does not exists.")
  else
    match Factory_of (GetInfo rules name) with
    | Some f => Ok (f opts)
    | None => Panic nil_deref_msg
    end.

End Rule.

(** ** Package plugin (imported by the manager; its source is not in src/) *)
Module Plugin.

(** Modelled from the spec: the [plugin.Plugin] interface, whose source is
    missing. "A named, configured middleware instance produced by a
    registered factory. Carries: ID, display name, description, enabled
    flag, arbitrary configuration object, arbitrary metadata object." *)
Record Plugin := mkPlugin {
  ID : string;
  Name : string;
  Description : string;
  Enabled : bool;
  Config_of : Config;
  Metadata : Config;
}.

(** Modelled from the spec: [plugin.Factory], used by the manager as
    [instance, err := factory(params)]; [inr e] is a non-nil error [e]. *)
Definition Factory := Config -> Plugin + string.

(** Modelled from the spec: [plugin.Info], a registry entry "(name, factory,
    declared parameter schema, human-readable description)". *)
Record Info := mkInfo {
  info_Name : string;
  info_Description : string;
  info_Params : Rule.Params;
  info_Factory : option Factory;
}.

(** Modelled from the spec: the global [plugin.Plugins] registry, "two
    independent registries exist (plugins, rules) with identical contract". *)
Abbreviation Plugins := (gmap string Info).

(** Modelled from the spec: [plugin.Get], with the contract of [rule.Get]. *)
Definition Get (plugins : gmap string Info) (name : string) : option Factory :=
  match plugins !! name with
  | Some i => info_Factory i
  | None => None
  end.

End Plugin.

(** ** Package manager: JSON views, src/unnamed/part_000 and src/manager/api.go *)
Module Manager.
Import Plugin.

(** [type JSONPlugin struct { ID, Name, Description string; Enabled bool;
    Config, Metadata config.Config }] (identical in both files). *)
Record JSONPlugin := mkJSONPlugin {
  j_ID : string;
  j_Name : string;
  j_Description : string;
  j_Enabled : bool;
  j_Config : Config;
  j_Metadata : Config;
}.

(** [createPlugin] of src/manager/api.go and of src/unnamed/part_000 (the two
    bodies are the same): a composite literal without an [Enabled] key, so
    the field takes Go's zero value [false]. *)
Definition createPlugin (p : Plugin) : JSONPlugin :=
  {| j_ID := ID p;
     j_Name := Name p;
     j_Description := Description p;
     j_Enabled := false;
     j_Config := Config_of p;
     j_Metadata := Metadata p |}.

(** Go's [s[i] = x] on a slice: a runtime panic when [i] is out of range. *)
Definition slice_set {A} (s : list A) (i : nat) (x : A) : result (list A) :=
  if decide (i < length s) then Ok (<[i := x]> s)
  else Panic "runtime error: index out of range".

(** [append(s, x)] *)
Definition slice_append {A} (s : list A) (x : A) : list A := s ++ [x].

(** [createPlugins] of src/unnamed/part_000:
    [list := []JSONPlugin{}; for _, plugin := range plugins { list = append(list, createPlugin(plugin)) }] *)
Fixpoint createPlugins_part000_loop (ps : list Plugin) (acc : list JSONPlugin)
  : list JSONPlugin :=
  match ps with
  | [] => acc
  | p :: ps' => createPlugins_part000_loop ps' (slice_append acc (createPlugin p))
  end.

Definition createPlugins_part000 (ps : list Plugin) : result (list JSONPlugin) :=
  Ok (createPlugins_part000_loop ps []).

(** [createPlugins] of src/manager/api.go:
    [list := []JSONPlugin{}; for i, plugin := range plugins { list[i] = createPlugin(plugin) }] *)
Fixpoint createPlugins_api_loop (i : nat) (ps : list Plugin) (acc : list JSONPlugin)
  : result (list JSONPlugin) :=
  match ps with
  | [] => Ok acc
  | p :: ps' =>
      let! acc' := slice_set acc i (createPlugin p) in
      createPlugins_api_loop (S i) ps' acc'
  end.

Definition createPlugins_api (ps : list Plugin) : result (list JSONPlugin) :=
  createPlugins_api_loop 0 ps [].

End Manager.

(** ** Manager controllers *)
Module Controllers.
Import Plugin Manager.

(** What a controller does to the HTTP response through [ctx]:
    [ctx.Send(v)], [ctx.SendError(code, msg)], [ctx.SendNotFound(msg)],
    [ctx.SendNoContent()], or nothing more (after a failed [ctx.ParseBody],
    which answers the client itself). *)
Inductive Response (A : Type) : Type :=
| Send (v : A)
| SendError (code : nat) (msg : string)
| SendNotFound (msg : string)
| SendNoContent
| ParseBodyFailed.
Arguments Send {A} v.
Arguments SendError {A} code msg.
Arguments SendNotFound {A} msg.
Arguments SendNoContent {A}.
Arguments ParseBodyFailed {A}.

(** The request body [type data struct { Name string; Params config.Config }]. *)
Record data := mkData { data_Name : string; data_Params : Config }.

(** Modelled from the spec: [Manager.UsePlugin], missing from src/; it
    attaches the plugin to the manager's plugin set, kept in insertion
    order. *)
Definition UsePlugin (ps : list Plugin) (p : Plugin) : list Plugin := ps ++ [p].

(** [func (PluginsController) Create(ctx *Context)] of src/unnamed/part_000.
    [body] is the outcome of [ctx.ParseBody(&plu)] ([None] on error);
    [mgr] is the manager's plugin set. *)
Definition Create (plugins : gmap string Info) (body : option data)
  (mgr : list Plugin) : list Plugin * Response JSONPlugin :=
  match body with
  | None => (mgr, ParseBodyFailed)
  | Some plu =>
      if decide (data_Name plu = "") then
        (mgr, SendError 400 "Missing required param: name")
      else
        match Plugin.Get plugins (data_Name plu) with
        | None => (mgr, SendNotFound "Plugin not found")
        | Some factory =>
            match factory (data_Params plu) with
            | inr err => (mgr, SendError 400 ("Cannot create plugin: " ++ err))
            | inl instance => (UsePlugin mgr instance, Send (createPlugin instance))
            end
        end
  end.

(** The entity kinds removable through the API. *)
Inductive Kind := KInstance | KScope | KPlugin | KRule.

(** The error message of each DELETE route of src/manager/api.go. *)
Definition remove_error_msg (k : Kind) : string :=
  match k with
  | KInstance => "Cannot remove instance"
  | KScope => "Cannot remove scope"
  | KPlugin => "Cannot remove plugin"
  | KRule => "Cannot remove rule"
  end.

(** Modelled from the spec: the loading of [ctx.Instance], [ctx.Scope],
    [ctx.Plugin] and [ctx.Rule] from the route parameters, missing from
    src/; an absent ID "signals NotFound". *)
Definition not_found_msg (k : Kind) : string :=
  match k with
  | KInstance => "Instance not found"
  | KScope => "Scope not found"
  | KPlugin => "Plugin not found"
  | KRule => "Rule not found"
  end.

Section Removal.
(** The administrative store, the lookup of an entity from its route
    parameter (giving the loaded entity's [ID]), and the structural
    mutations [RemoveInstance], [RemoveScope], [RemovePlugin] and
    [RemoveRule], which return the new store and their boolean. *)
Variable Store : Type.
Variable resolve : Kind -> Store -> string -> option string.
Variable remove : Kind -> Store -> string -> Store * bool.

(** Body of each DELETE route:
    [if ctx.Manager.RemoveX(ctx.X.ID) { ctx.SendNoContent() } else { ctx.SendError(500, "Cannot remove x") }] *)
Definition delete_body (k : Kind) (st : Store) (id : string) : Store * Response unit :=
  let '(st', ok) := remove k st id in
  if ok then (st', SendNoContent) else (st', SendError 500 (remove_error_msg k)).

(** A DELETE request on [/.../:x] for the entity [param]. *)
Definition delete_route (k : Kind) (st : Store) (param : string) : Store * Response unit :=
  match resolve k st param with
  | None => (st, SendNotFound (not_found_msg k))
  | Some id => delete_body k st id
  end.

End Removal.

(** [GET /catalog]: one slice per registry, filled by ranging over the map.
    Go's map iteration order is unspecified; [map_to_list] fixes one, and
    the statements below do not depend on it. *)
Definition catalog_rules (rules : gmap string Rule.Info) : list Rule.Info :=
  fold_left (fun acc kv => slice_append acc kv.2) (map_to_list rules) [].

Definition catalog_plugins (plugins : gmap string Plugin.Info) : list Plugin.Info :=
  fold_left (fun acc kv => slice_append acc kv.2) (map_to_list plugins) [].

(** The [catalog] struct sent as JSON. *)
Record Catalog := mkCatalog {
  cat_Rules : list Rule.Info;
  cat_Plugins : list Plugin.Info;
}.

Definition catalog (rules : gmap string Rule.Info) (plugins : gmap string Plugin.Info)
  : Response Catalog :=
  Send (mkCatalog (catalog_rules rules) (catalog_plugins plugins)).

End Controllers.

(** ** Package vinxi: src/vinxi.go, with the layer, router and forward
    packages it builds on *)
Module Vinxi.

(** An inbound [*http.Request], through the fields the core reads and
    writes; [ctx] is the per-request store of package [context]. *)
Record Request := mkRequest {
  Method : string;
  Path : string;
  Host : string;
  URL_Host : string;
  ctx : gmap string string;
}.

(** [context.Set(r, key, value)] *)
Definition context_Set (r : Request) (key value : string) : Request :=
  {| Method := Method r; Path := Path r; Host := Host r; URL_Host := URL_Host r;
     ctx := <[key := value]> (ctx r) |}.

(** [r.URL.Host = h] *)
Definition set_URL_Host (r : Request) (h : string) : Request :=
  {| Method := Method r; Path := Path r; Host := Host r; URL_Host := h;
     ctx := ctx r |}.

(** *** Package forward *)

(** Modelled from the spec: the forwarder of package [forward], missing from
    src/, with its "configuration option to preserve the original inbound
    host identity in the forwarded request". *)
Record Forwarder := mkForwarder { passHost : bool }.

(** Modelled from the spec: [forward.PassHostHeader(b)], a functional option. *)
Definition PassHostHeader (b : bool) (f : Forwarder) : Forwarder := mkForwarder b.

(** Modelled from the spec: [forward.New(opts...)] applies the options in
    order to a forwarder without host preservation; its error is nil. *)
Definition forward_New (opts : list (Forwarder -> Forwarder)) : Forwarder * option string :=
  (fold_left (fun f o => o f) opts (mkForwarder false), None).

(** Modelled from the spec: the request the forwarder sends upstream. The
    target "is derived from the request's own addressing information"; "with
    host-preservation enabled: the upstream receives the original inbound
    host identity unchanged; with it disabled, the upstream receives the
    proxy's own outbound host" ([proxy_host]). *)
Record Outbound := mkOutbound { out_target : string; out_Host : string }.

Definition forward_request (f : Forwarder) (proxy_host : string) (r : Request) : Outbound :=
  {| out_target := URL_Host r;
     out_Host := if passHost f then Host r else proxy_host |}.

(** [var DefaultForwarder, _ = forward.New(forward.PassHostHeader(true))] *)
Definition DefaultForwarder : Forwarder := fst (forward_New [PassHostHeader true]).

(** *** Packages layer and router *)

(** Modelled from the spec: the priority buckets of package [layer]. *)
Inductive Priority := Head | Normal | Tail.

Definition Priority_eqb (a b : Priority) : bool :=
  match a, b with
  | Head, Head | Normal, Normal | Tail, Tail => true
  | _, _ => false
  end.

(** Handlers a layer holds: a router (by pointer, the layer shares it with
    the [Vinxi] value), a forwarder, or a plain middleware function that
    either writes the response ([true]) or calls [next] ([false]). *)
Inductive Handler :=
| HRouter (router : nat)
| HForwarder (f : Forwarder)
| HFunc (name : string) (writes : Request -> bool).

(** Modelled from the spec: [layer.Layer], "an ordered-by-phase,
    ordered-by-priority collection of handler entries, with at most one
    designated final handler and an optional parent Layer reference". *)
Record Layer := mkLayer {
  entries : list (string * Priority * Handler);
  final : option Handler;
  parent : option nat;
}.

(** Modelled from the spec: [layer.New()] *)
Definition layer_New : Layer := mkLayer [] None None.

(** Modelled from the spec: [Layer.UsePriority(phase, priority, handler)],
    stable within a bucket. *)
Definition layer_UsePriority (phase : string) (p : Priority) (h : Handler) (l : Layer) : Layer :=
  mkLayer (entries l ++ [(phase, p, h)]) (final l) (parent l).

(** Modelled from the spec: [Layer.UseFinalHandler(h)], last write wins. *)
Definition layer_UseFinalHandler (h : Handler) (l : Layer) : Layer :=
  mkLayer (entries l) (Some h) (parent l).

(** The handlers of one phase in execution order: Head, Normal, Tail, each
    bucket in registration order. *)
Definition bucket (phase : string) (p : Priority) (l : Layer) : list Handler :=
  map snd (List.filter (fun e => bool_decide (e.1.1 = phase) && Priority_eqb e.1.2 p) (entries l)).

Definition phase_handlers (phase : string) (l : Layer) : list Handler :=
  bucket phase Head l ++ bucket phase Normal l ++ bucket phase Tail l.

(** Modelled from the spec: a route of package [router], registered with
    [Router.Route(method, pattern)]; [rt_handler] names the handler attached
    to the returned handle. *)
Record Route := mkRoute { rt_method : string; rt_pattern : string; rt_handler : string }.

(** Modelled from the spec: [router.Router], holding its routes and the
    parent layer set by [SetParent]. *)
Record Router := mkRouter { routes : list Route; router_parent : option nat }.

Definition router_New : Router := mkRouter [] None.

Definition router_SetParent (p : nat) (rt : Router) : Router := mkRouter (routes rt) (Some p).

Definition router_Route (method pattern handler : string) (rt : Router) : Router :=
  mkRouter (routes rt ++ [mkRoute method pattern handler]) (router_parent rt).

(** Splitting a path on ['/']. *)
Fixpoint split_path_from (s cur : string) : list string :=
  match s with
  | EmptyString => [cur]
  | String c s' =>
      if Ascii.eqb c "/"%char then cur :: split_path_from s' ""
      else split_path_from s' (cur ++ String c EmptyString)
  end.

Definition split_path (s : string) : list string := split_path_from s "".

(** A pattern segment [:name] matches any non-empty segment; any other
    pattern segment matches itself only. *)
Definition segment_matches (pat seg : string) : bool :=
  match pat with
  | String ":"%char _ => negb (bool_decide (seg = ""))
  | _ => bool_decide (pat = seg)
  end.

Fixpoint segments_match (pats segs : list string) : bool :=
  match pats, segs with
  | [], [] => true
  | p :: pats', s :: segs' => segment_matches p s && segments_match pats' segs'
  | _, _ => false
  end.

(** Number of literal segments, the specificity of a pattern. *)
Definition literal_segments (pat : string) : nat :=
  length (List.filter (fun s => match s with String ":"%char _ => false | _ => true end)
                 (split_path pat)).

Definition route_matches (method : string) (r : Request) (rt : Route) : bool :=
  bool_decide (rt_method rt = method) && segments_match (split_path (rt_pattern rt)) (split_path (Path r)).

(** The most specific matching route for [method]; ties go to the earliest
    registered one. *)
Definition best_route (method : string) (r : Request) (rs : list Route) : option Route :=
  fold_left (fun best rt =>
               if route_matches method r rt then
                 match best with
                 | Some b => if decide (literal_segments (rt_pattern b) < literal_segments (rt_pattern rt))
                             then Some rt else Some b
                 | None => Some rt
                 end
               else best) rs None.

(** Modelled from the spec: route selection, "exact method match takes
    priority over [*]". *)
Definition router_match (rt : Router) (r : Request) : option Route :=
  match best_route (Method r) r (routes rt) with
  | Some x => Some x
  | None => best_route "*" r (routes rt)
  end.

(** The process heap of layers and routers, addressed by pointers. *)
Record Heap := mkHeap { layers : gmap nat Layer; routers : gmap nat Router }.

Definition alloc_layer (h : Heap) (l : Layer) : Heap * nat :=
  let p := fresh (dom (layers h)) in (mkHeap (<[p := l]> (layers h)) (routers h), p).

Definition alloc_router (h : Heap) (rt : Router) : Heap * nat :=
  let p := fresh (dom (routers h)) in (mkHeap (layers h) (<[p := rt]> (routers h)), p).

Definition update_layer (p : nat) (f : Layer -> Layer) (h : Heap) : Heap :=
  mkHeap (alter f p (layers h)) (routers h).

Definition update_router (p : nat) (f : Router -> Router) (h : Heap) : Heap :=
  mkHeap (layers h) (alter f p (routers h)).

(** How the run of a phase ends. *)
Inductive Outcome :=
| Handled (name : string) (r : Request)        (** a middleware wrote the response *)
| RouteHandled (name : string) (r : Request)   (** a route handler was dispatched *)
| Forwarded (f : Forwarder) (r : Request)      (** the forwarder proxied the request *)
| Delegated (parent : nat) (r : Request)       (** handed to the parent layer *)
| Dropped (r : Request).                       (** nothing handled the request *)

(** One handler; [None] means it called [next]. *)
Definition run_handler (h : Heap) (hd : Handler) (r : Request) : result (option Outcome) :=
  match hd with
  | HRouter p =>
      match routers h !! p with
      | None => Panic nil_deref_msg
      | Some rt =>
          match router_match rt r with
          | Some route => Ok (Some (RouteHandled (rt_handler route) r))
          | None => Ok None
          end
      end
  | HForwarder f => Ok (Some (Forwarded f r))
  | HFunc name writes => Ok (if writes r then Some (Handled name r) else None)
  end.

Fixpoint run_handlers (h : Heap) (hs : list Handler) (r : Request) : result (option Outcome) :=
  match hs with
  | [] => Ok None
  | hd :: hs' =>
      let! o := run_handler h hd r in
      match o with
      | Some out => Ok (Some out)
      | None => run_handlers h hs' r
      end
  end.

(** Modelled from the spec: [Layer.Run(phase, w, r, nil)]: the phase's
    handlers in order; when all call [next], the parent layer if any, else
    the final handler. *)
Definition Layer_Run (h : Heap) (lp : nat) (phase : string) (r : Request) : result Outcome :=
  match layers h !! lp with
  | None => Panic nil_deref_msg
  | Some l =>
      let! o := run_handlers h (phase_handlers phase l) r in
      match o with
      | Some out => Ok out
      | None =>
          match parent l with
          | Some p => Ok (Delegated p r)
          | None =>
              match final l with
              | None => Ok (Dropped r)
              | Some fh =>
                  let! o' := run_handler h fh r in
                  match o' with
                  | Some out => Ok out
                  | None => Ok (Dropped r)
                  end
              end
          end
      end
  end.

(** *** src/vinxi.go *)

(** [type Metadata struct { ID, Name, Description, Hostname, Platform string; ... }]
    (the server options are left out: nothing here reads them). *)
Record Metadata := mkMetadata {
  md_ID : string;
  md_Name : string;
  md_Description : string;
  md_Hostname : string;
  md_Platform : string;
}.

(** [NewMetadata()]: [utils.NewID()], [os.Hostname()] and [runtime.GOOS]
    come from the environment and are passed in. *)
Definition NewMetadata (id hostname platform : string) : Metadata :=
  mkMetadata id "" "" hostname platform.

(** [type Vinxi struct { Metadata *Metadata; Layer *layer.Layer; Router *router.Router }] *)
Record Vinxi := mkVinxi { v_Metadata : Metadata; v_Layer : nat; v_Router : nat }.

(** [const RequestPhase = "request"] of package layer. *)
Definition RequestPhase : string := "request".

(** [func (v *Vinxi) UseFinalHandler(fn http.Handler) *Vinxi] *)
Definition UseFinalHandler (v : Vinxi) (fn : Handler) (h : Heap) : Heap :=
  update_layer (v_Layer v) (layer_UseFinalHandler fn) h.

(** [func New() *Vinxi] *)
Definition New (md : Metadata) (h0 : Heap) : Heap * Vinxi :=
  let '(h1, lp) := alloc_layer h0 layer_New in
  let '(h2, rp) := alloc_router h1 router_New in
  let v := mkVinxi md lp rp in
  (* v.Router.SetParent(v.Layer) *)
  let h3 := update_router rp (router_SetParent lp) h2 in
  (* v.Layer.UsePriority(layer.RequestPhase, layer.Tail, v.Router) *)
  let h4 := update_layer lp (layer_UsePriority RequestPhase Tail (HRouter rp)) h3 in
  (* v.UseFinalHandler(DefaultForwarder) *)
  let h5 := UseFinalHandler v (HForwarder DefaultForwarder) h4 in
  (h5, v).

(** [func (v *Vinxi) Route(method, path string) *router.Route], with the
    handler then attached to the returned route. *)
Definition Vinxi_Route (v : Vinxi) (method path handler : string) (h : Heap) : Heap :=
  update_router (v_Router v) (router_Route method path handler) h.

(** Registering several routes in turn. *)
Definition add_routes (v : Vinxi) (rs : list Route) (h : Heap) : Heap :=
  fold_left (fun h rt => Vinxi_Route v (rt_method rt) (rt_pattern rt) (rt_handler rt) h) rs h.

(** The two writes ServeHTTP makes before running the layer. *)
Definition prepare (r : Request) : Request :=
  (* context.Set(r, "vinxi.host", r.Host) *)
  let r1 := context_Set r "vinxi.host" (Host r) in
  (* r.URL.Host = r.Host *)
  set_URL_Host r1 (Host r1).

(** [func (v *Vinxi) ServeHTTP(w http.ResponseWriter, r *http.Request)] *)
Definition ServeHTTP (h : Heap) (v : Vinxi) (r : Request) : result Outcome :=
  Layer_Run h (v_Layer v) "request" (prepare r).

End Vinxi.

(** ** Package manager: the JSON views of src/manager/api.go *)
Module Views.
Import Plugin Manager Controllers.

(** Modelled from the spec: the manager's [Scope] (missing from src/), "a
    named grouping" owning "an ordered set of Rules" and "a Plugin set";
    [scope.Rules.All()] and [scope.Plugins.All()] list them and
    [scope.Rules.Len()] is the length of [All()]. *)
Record Scope := mkScope {
  scope_ID : string;
  scope_Name : string;
  scope_Rules : list Rule.Rule;
  scope_Plugins : list Plugin;
}.

(** Modelled from the spec: the manager's [Instance] (missing from src/),
    with "metadata (ID, name, description)" and "an ordered set of Scopes"
    listed by [instance.Scopes()]. *)
Record Instance := mkInstance {
  inst_ID : string;
  inst_Name : string;
  inst_Description : string;
  inst_Scopes : list Scope;
}.

(** [type JSONRule struct { ID, Name, Description string; Config, Metadata config.Config }] *)
Record JSONRule := mkJSONRule {
  jr_ID : string;
  jr_Name : string;
  jr_Description : string;
  jr_Config : Config;
  jr_Metadata : Config;
}.

(** [type JSONScope struct { ID, Name string; Rules []JSONRule; Plugins []JSONPlugin }] *)
Record JSONScope := mkJSONScope {
  js_ID : string;
  js_Name : string;
  js_Rules : list JSONRule;
  js_Plugins : list JSONPlugin;
}.

(** [type JSONInstance struct { ID, Name, Description string;
    Metadata []config.Config; Scopes []JSONScope }] *)
Record JSONInstance := mkJSONInstance {
  ji_ID : string;
  ji_Name : string;
  ji_Description : string;
  ji_Metadata : list Config;
  ji_Scopes : list JSONScope;
}.

(** Zero values, the elements of a slice made by [make([]T, n)]; a nil
    map or slice is the empty list. *)
Definition zero_JSONRule : JSONRule := mkJSONRule "" "" "" [] [].
Definition zero_JSONScope : JSONScope := mkJSONScope "" "" [] [].

(** [make([]T, n)] *)
Definition make_slice {A} (zero : A) (n : nat) : list A := repeat zero n.

(** [for i, x := range xs { buf[i] = f(x) }], where computing [f(x)] may
    itself panic. *)
Fixpoint assign_loop {A B} (f : A -> result B) (i : nat) (xs : list A) (buf : list B)
  : result (list B) :=
  match xs with
  | [] => Ok buf
  | x :: xs' =>
      let! y := f x in
      let! buf' := slice_set buf i y in
      assign_loop f (S i) xs' buf'
  end.

(** [func createRule(rule rule.Rule) JSONRule]: no [Metadata] key, so the
    field is the nil map. *)
Definition createRule (r : Rule.Rule) : JSONRule :=
  {| jr_ID := Rule.rule_id r;
     jr_Name := Rule.rule_name r;
     jr_Description := Rule.rule_description r;
     jr_Config := Rule.rule_config r;
     jr_Metadata := [] |}.

(** [func createRules(scope *Scope) []JSONRule]:
    [rules := make([]JSONRule, scope.Rules.Len()); for i, rule := range scope.Rules.All() { rules[i] = createRule(rule) }] *)
Definition createRules (s : Scope) : result (list JSONRule) :=
  assign_loop (fun r => Ok (createRule r)) 0 (scope_Rules s)
    (make_slice zero_JSONRule (length (scope_Rules s))).

(** [func createScope(scope *Scope) JSONScope]; the fields of the composite
    literal are evaluated in order, [createRules] before [createPlugins]. *)
Definition createScope (s : Scope) : result JSONScope :=
  let! rules := createRules s in
  let! plugins := createPlugins_api (scope_Plugins s) in
  Ok {| js_ID := scope_ID s; js_Name := scope_Name s; js_Rules := rules; js_Plugins := plugins |}.

(** [func createScopes(scopes []*Scope) []JSONScope]:
    [buf := make([]JSONScope, len(scopes)); for i, scope := range scopes { buf[i] = createScope(scope) }] *)
Definition createScopes (ss : list Scope) : result (list JSONScope) :=
  assign_loop createScope 0 ss (make_slice zero_JSONScope (length ss)).

(** [func createInstance(instance *Instance, ctx *Context) JSONInstance]:
    no [Metadata] key, so the field is the nil slice. *)
Definition createInstance (i : Instance) : result JSONInstance :=
  let! scopes := createScopes (inst_Scopes i) in
  Ok {| ji_ID := inst_ID i; ji_Name := inst_Name i; ji_Description := inst_Description i;
        ji_Metadata := []; ji_Scopes := scopes |}.

(** [func createInstances(instances []*Instance, ctx *Context) []JSONInstance]:
    [list := []JSONInstance{}; for _, instance := range instances { list = append(list, createInstance(instance, ctx)) }] *)
Fixpoint createInstances_loop (is : list Instance) (acc : list JSONInstance)
  : result (list JSONInstance) :=
  match is with
  | [] => Ok acc
  | i :: is' =>
      let! ji := createInstance i in
      createInstances_loop is' (slice_append acc ji)
  end.

Definition createInstances (is : list Instance) : result (list JSONInstance) :=
  createInstances_loop is [].

(** [GET /instances]: [ctx.SendJSON(createInstances(ctx.Manager.Instances(), ctx))] *)
Definition get_instances (is : list Instance) : result (Response (list JSONInstance)) :=
  let! l := createInstances is in Ok (Send l).

(** [GET /scopes] and [GET /instances/:instance/scopes]:
    [ctx.SendJSON(createScopes(...Scopes()))] *)
Definition get_scopes (ss : list Scope) : result (Response (list JSONScope)) :=
  let! l := createScopes ss in Ok (Send l).

(** [func (PluginsController) List(ctx *Context)] of src/unnamed/part_000:
    the scope's plugin layer when [ctx.Scope != nil], else the manager's. *)
Definition List (scope : option Scope) (mgr : list Plugin) : result (Response (list JSONPlugin)) :=
  let layer := match scope with Some s => scope_Plugins s | None => mgr end in
  let! l := createPlugins_part000 layer in Ok (Send l).

(** The message of Go's runtime panic on an out-of-range slice index. *)
Definition idx_msg := "runtime error: index out of range".

(** A scope with an empty plugin set. *)
Definition has_no_plugin (s : Scope) : bool :=
  match scope_Plugins s with [] => true | _ => false end.

(** The view [createScope] gives a scope without plugins. *)
Definition scope_view (s : Scope) : JSONScope :=
  mkJSONScope (scope_ID s) (scope_Name s) (map createRule (scope_Rules s)) [].

End Views.

(** ** The remaining methods of [Vinxi] in src/vinxi.go *)
Module VinxiOps.
Import Vinxi.

(** Modelled from the spec: [Layer.Use(phase, handler...)], which registers
    each handler in turn among the "unordered Normal entries in registration
    order". *)
Definition layer_Use (phase : string) (hs : list Handler) (l : Layer) : Layer :=
  fold_left (fun l hd => layer_UsePriority phase Normal hd l) hs l.

(** [func (v *Vinxi) Use(handler ...interface{}) *Vinxi] *)
Definition Use (v : Vinxi) (hs : list Handler) (h : Heap) : Heap :=
  update_layer (v_Layer v) (layer_Use RequestPhase hs) h.


(** Modelled from the spec: [forward.To(uri)], "rewrites the destination
    unconditionally to a fixed URI"; it always answers the request. *)
Definition forward_To (uri : string) : Handler :=
  HFunc ("forward.To " ++ uri) (fun _ => true).

(** [func (v *Vinxi) Forward(uri string) *Vinxi] *)
Definition Forward (v : Vinxi) (uri : string) (h : Heap) : Heap :=
  UseFinalHandler v (forward_To uri) h.

(** [func (v *Vinxi) SetForwader(fn http.Handler) *Vinxi] *)
Definition SetForwader (v : Vinxi) (fn : Handler) (h : Heap) : Heap :=
  update_layer (v_Layer v) (layer_UseFinalHandler fn) h.

(** [Get], [Post], [Put], [Delete], [Options], [Patch] and [All]. *)
Definition Get (v : Vinxi) (path handler : string) (h : Heap) : Heap := Vinxi_Route v "GET" path handler h.
Definition Post (v : Vinxi) (path handler : string) (h : Heap) : Heap := Vinxi_Route v "POST" path handler h.
Definition Put (v : Vinxi) (path handler : string) (h : Heap) : Heap := Vinxi_Route v "PUT" path handler h.
Definition Delete (v : Vinxi) (path handler : string) (h : Heap) : Heap := Vinxi_Route v "DELETE" path handler h.
Definition Options (v : Vinxi) (path handler : string) (h : Heap) : Heap := Vinxi_Route v "OPTIONS" path handler h.
Definition Patch (v : Vinxi) (path handler : string) (h : Heap) : Heap := Vinxi_Route v "PATCH" path handler h.
Definition All (v : Vinxi) (path handler : string) (h : Heap) : Heap := Vinxi_Route v "*" path handler h.

End VinxiOps.

(** ** Concrete inputs used by the examples and witnesses *)
Module Samples.
Import Rule Plugin Controllers.

(** A rule factory and two rule entries under one name. *)
Definition sample_factory (tag : string) : Rule.Factory :=
  fun opts => mkRule tag tag "" opts.

Definition info_a : Rule.Info := Rule.mkInfo "path" "first" [] (Some (sample_factory "a")).
Definition info_b : Rule.Info := Rule.mkInfo "path" "second" [] (Some (sample_factory "b")).

Definition sample_plugin (enabled : bool) : Plugin :=
  mkPlugin "p1" "cors" "CORS headers" enabled [("origin", "*")] [("owner", "ops")].

(** A plugin registry holding one factory that refuses an empty
    configuration. *)
Definition cors_factory : Plugin.Factory :=
  fun cfg =>
    match cfg with
    | [] => inr "missing origin"
    | _ => inl (mkPlugin "p9" "cors" "CORS headers" true cfg [])
    end.

Definition sample_plugins : gmap string Plugin.Info :=
  <["cors" := Plugin.mkInfo "cors" "CORS headers" [] (Some cors_factory)]> ∅.

#[global] Instance Kind_eq_dec : EqDecision Kind.
Proof. solve_decision. Defined.

(** A store given by the IDs present per kind. The mutation of [KScope] is
    made to fail, as a structural removal that cannot complete. *)
Definition ids_store := Kind -> list string.

Definition ids_resolve (k : Kind) (st : ids_store) (id : string) : option string :=
  if decide (id ∈ st k) then Some id else None.

Definition ids_remove (k : Kind) (st : ids_store) (id : string) : ids_store * bool :=
  match k with
  | KScope => (st, false)
  | _ => (fun k' => if decide (k' = k) then List.filter (fun x => negb (bool_decide (x = id))) (st k')
                    else st k', true)
  end.

Definition sample_store : ids_store := fun _ => ["i1"].

End Samples.

(** * Properties *)

(** ** The rule registry *)
Module RuleProps.
Import Rule Samples.

Lemma lookup_Register_eq (rules : gmap string Info) (r : Info) :
  Register rules r !! Name r = Some r.
Proof. unfold Register. apply lookup_insert_eq. Qed.

Lemma Register_overwrite (rules : gmap string Info) (r1 r2 : Info) :
  Name r1 = Name r2 -> Register (Register rules r1) r2 = Register rules r2.
Proof. intros Hn. unfold Register. rewrite Hn. apply insert_insert_eq. Qed.

Example GetInfo_sample : GetInfo (Register ∅ info_a) "path" = info_a.
Proof. reflexivity. Qed.

Example Init_sample : Init (Register ∅ info_a) "path" [] = Ok (mkRule "a" "a" "" []).
Proof. reflexivity. Qed.

(** C7: after [Register r], [Exists], [Get] and [GetInfo] on [r.Name] give
    [true], [r.Factory] and [r]; on a name with no registration, [Exists]
    is false and [Get] returns nil. *)
Theorem registry_roundtrip (rules : gmap string Info) :
  (forall r : Info,
     Exists (Register rules r) (Name r) = true /\
     Get (Register rules r) (Name r) = Factory_of r /\
     GetInfo (Register rules r) (Name r) = r) /\
  (forall name : string,
     rules !! name = None -> Exists rules name = false /\ Get rules name = None).
Proof.
  split.
  - intros r. unfold Exists, Get, GetInfo. rewrite lookup_Register_eq. auto.
  - intros name Hn. unfold Exists, Get. rewrite Hn. auto.
Qed.

Lemma registry_roundtrip_witness :
  Exists (Register ∅ info_a) "path" = true /\
  (Exists ∅ "other" = false /\ Get ∅ "other" = None).
Proof.
  split.
  - exact (proj1 (proj1 (registry_roundtrip ∅) info_a)).
  - apply (proj2 (registry_roundtrip ∅) "other"). reflexivity.
Defined.

(** C10: registering two entries under one name keeps the later one: the
    store equals the one with only the later registration, and [Get],
    [GetInfo] and [Init] observe the later entry. *)
Theorem register_last_write_wins (rules : gmap string Info) (r1 r2 : Info) :
  Name r1 = Name r2 ->
  Register (Register rules r1) r2 = Register rules r2 /\
  Get (Register (Register rules r1) r2) (Name r1) = Factory_of r2 /\
  GetInfo (Register (Register rules r1) r2) (Name r1) = r2 /\
  (forall opts : Config,
     Init (Register (Register rules r1) r2) (Name r1) opts =
     match Factory_of r2 with
     | Some f => Ok (f opts)
     | None => Panic nil_deref_msg
     end).
Proof.
  intros Hn. rewrite (Register_overwrite rules r1 r2 Hn), Hn.
  unfold Init, Exists, Get, GetInfo. rewrite lookup_Register_eq.
  repeat split.
Qed.

Lemma register_last_write_wins_witness :
  Name info_a = Name info_b /\
  Init (Register (Register ∅ info_a) info_b) "path" [] = Ok (mkRule "b" "b" "" []).
Proof.
  split; [reflexivity |].
  exact (proj2 (proj2 (proj2 (register_last_write_wins ∅ info_a info_b eq_refl))) []).
Defined.

(** C1, refuted: [Init] on a name that is not registered does not hand an
    error back; it panics, and no [Rule] value is returned. *)
Lemma Init_unknown_panics_cex :
  Init ∅ "missing" [] = Panic "vinxi: rule 'missing' does not exists." /\
  (forall rv : Rule, Init ∅ "missing" [] <> Ok rv).
Proof. split; [reflexivity | discriminate]. Qed.

(** C1, as the code behaves: on an unregistered name [Init] panics with
    the message ["vinxi: rule '<name>' does not exists."] instead of
    returning an error value; on a registered name with a factory it
    returns the factory's rule. *)
Theorem Init_unknown_panics (rules : gmap string Info) (name : string) (opts : Config) :
  (rules !! name = None ->
   Init rules name opts = Panic ("vinxi: rule '" ++ name ++ "' does not exists.")) /\
  (forall (i : Info) (f : Factory),
     rules !! name = Some i -> Factory_of i = Some f -> Init rules name opts = Ok (f opts)).
Proof.
  split.
  - intros Hn. unfold Init, Exists. rewrite Hn. reflexivity.
  - intros i f Hi Hf. unfold Init, Exists, GetInfo. rewrite Hi, Hf. reflexivity.
Qed.

Lemma Init_unknown_panics_witness :
  Init ∅ "missing" [] = Panic "vinxi: rule 'missing' does not exists." /\
  Init (Register ∅ info_a) "path" [] = Ok (sample_factory "a" []).
Proof.
  split.
  - apply (proj1 (Init_unknown_panics ∅ "missing" [])). reflexivity.
  - apply (proj2 (Init_unknown_panics (Register ∅ info_a) "path" []) info_a);
      reflexivity.
Defined.

End RuleProps.

(** ** JSON views and controllers of the manager *)
Module ManagerProps.
Import Plugin Manager Controllers Samples.

Example createPlugin_sample :
  createPlugin (sample_plugin true) =
  mkJSONPlugin "p1" "cors" "CORS headers" false [("origin", "*")] [("owner", "ops")].
Proof. reflexivity. Qed.

(** C5: [createPlugin] carries the ID, name, description, configuration
    and metadata of the plugin, but its enabled flag is always [false];
    an enabled plugin is therefore serialized as disabled. *)
Theorem createPlugin_drops_enabled (p : Plugin) :
  j_ID (createPlugin p) = ID p /\
  j_Name (createPlugin p) = Name p /\
  j_Description (createPlugin p) = Description p /\
  j_Config (createPlugin p) = Config_of p /\
  j_Metadata (createPlugin p) = Metadata p /\
  j_Enabled (createPlugin p) = false.
Proof. repeat split. Qed.

Lemma createPlugins_part000_loop_app (ps : list Plugin) (acc : list JSONPlugin) :
  createPlugins_part000_loop ps acc = (acc ++ map createPlugin ps)%list.
Proof.
  revert acc. induction ps as [| p ps IH]; intros acc; simpl.
  - by rewrite app_nil_r.
  - rewrite IH. unfold slice_append. by rewrite <- app_assoc.
Qed.

Example createPlugins_sample :
  createPlugins_part000 [sample_plugin false] = Ok [createPlugin (sample_plugin false)] /\
  createPlugins_api [sample_plugin false] = Panic "runtime error: index out of range".
Proof. split; reflexivity. Qed.

(** C9: on every non-empty list the two [createPlugins] differ: the one of
    src/unnamed/part_000 returns one entry per plugin in order, the one of
    src/manager/api.go panics on its first index into the empty slice. *)
Theorem createPlugins_api_panics (p : Plugin) (ps : list Plugin) :
  createPlugins_part000 (p :: ps) = Ok (map createPlugin (p :: ps)) /\
  createPlugins_api (p :: ps) = Panic "runtime error: index out of range".
Proof.
  split.
  - unfold createPlugins_part000. by rewrite createPlugins_part000_loop_app.
  - reflexivity.
Qed.

Example Create_sample :
  Create sample_plugins (Some (mkData "cors" [("origin", "*")])) [] =
  ([mkPlugin "p9" "cors" "CORS headers" true [("origin", "*")] []],
   Send (createPlugin (mkPlugin "p9" "cors" "CORS headers" true [("origin", "*")] []))).
Proof. reflexivity. Qed.

(** C2: a create request whose factory name is not registered gets the
    not-found answer ([UnknownFactory]) and leaves the manager's plugin set
    as it was; a factory that rejects the configuration gets the 400
    answer carrying its reason ([InvalidConfig]) and the set is unchanged
    too. *)
Theorem Create_failure_leaves_plugins
  (plugins : gmap string Plugin.Info) (name : string) (params : Config) (mgr : list Plugin) :
  name <> "" ->
  (Plugin.Get plugins name = None ->
   Create plugins (Some (mkData name params)) mgr = (mgr, SendNotFound "Plugin not found")) /\
  (forall (factory : Plugin.Factory) (err : string),
     Plugin.Get plugins name = Some factory -> factory params = inr err ->
     Create plugins (Some (mkData name params)) mgr =
     (mgr, SendError 400 ("Cannot create plugin: " ++ err))).
Proof.
  intros Hname. unfold Create; simpl. rewrite decide_False by exact Hname.
  split.
  - intros Hg. by rewrite Hg.
  - intros factory err Hg Hf. by rewrite Hg, Hf.
Qed.

Lemma Create_failure_leaves_plugins_witness :
  Create sample_plugins (Some (mkData "gzip" [])) [sample_plugin true] =
  ([sample_plugin true], SendNotFound "Plugin not found") /\
  Create sample_plugins (Some (mkData "cors" [])) [sample_plugin true] =
  ([sample_plugin true], SendError 400 ("Cannot create plugin: " ++ "missing origin")).
Proof.
  split.
  - apply (proj1 (Create_failure_leaves_plugins sample_plugins "gzip" [] [sample_plugin true]
                    ltac:(discriminate))).
    reflexivity.
  - apply (proj2 (Create_failure_leaves_plugins sample_plugins "cors" [] [sample_plugin true]
                    ltac:(discriminate)) cors_factory); reflexivity.
Defined.

End ManagerProps.

(** ** Removal routes and the catalogue *)
Module RemovalProps.
Import Controllers Samples.

Example delete_sample :
  snd (delete_route ids_store ids_resolve ids_remove KInstance sample_store "i1") = SendNoContent /\
  snd (delete_route ids_store ids_resolve ids_remove KInstance sample_store "i2")
    = SendNotFound "Instance not found" /\
  snd (delete_route ids_store ids_resolve ids_remove KScope sample_store "i1")
    = SendError 500 "Cannot remove scope".
Proof. repeat split. Qed.

(** C6: for each of the four DELETE routes, the answer is no-content
    exactly when the entity is found and its structural removal returns
    true, not-found exactly when the ID is absent, and the 500 answer
    exactly when the removal returns false; the two failure answers are
    different. *)
Theorem delete_route_outcomes (Store : Type)
  (resolve : Kind -> Store -> string -> option string)
  (remove : Kind -> Store -> string -> Store * bool)
  (k : Kind) (st : Store) (param : string) :
  let res := snd (delete_route Store resolve remove k st param) in
  (res = SendNoContent <->
     exists id, resolve k st param = Some id /\ snd (remove k st id) = true) /\
  (res = SendNotFound (not_found_msg k) <-> resolve k st param = None) /\
  (res = SendError 500 (remove_error_msg k) <->
     exists id, resolve k st param = Some id /\ snd (remove k st id) = false) /\
  SendNotFound (A := unit) (not_found_msg k) <> SendError 500 (remove_error_msg k).
Proof.
  simpl. unfold delete_route, delete_body.
  destruct (resolve k st param) as [id |].
  - destruct (remove k st id) as [st' ok] eqn:Hr. simpl.
    destruct ok; simpl; repeat split;
      try discriminate; try (intros; eexists; split; [reflexivity | rewrite Hr; reflexivity]);
      try (intros [? [Hs Hb]]; injection Hs as <-; rewrite Hr in Hb; simpl in Hb; discriminate);
      try congruence.
  - simpl. repeat split; try discriminate; try (intros [? [Hs _]]; discriminate); auto.
Qed.

Lemma fold_append_snd {K V} (l : list (K * V)) (acc : list V) :
  fold_left (fun acc kv => Manager.slice_append acc kv.2) l acc = (acc ++ map snd l)%list.
Proof.
  revert acc. induction l as [| kv l IH]; intros acc; simpl.
  - by rewrite app_nil_r.
  - rewrite IH. unfold Manager.slice_append. by rewrite <- app_assoc.
Qed.

Lemma in_map_snd_map_to_list {V} (m : gmap string V) (v : V) :
  In v (map snd (map_to_list m)) <-> exists k, m !! k = Some v.
Proof.
  rewrite in_map_iff. split.
  - intros [[k v'] [Hv Hin]]. simpl in Hv. subst v'. exists k.
    apply elem_of_map_to_list. by apply list_elem_of_In.
  - intros [k Hk]. exists (k, v). split; [reflexivity |].
    apply list_elem_of_In. by apply elem_of_map_to_list.
Qed.

Example catalog_sample :
  catalog (Rule.Register ∅ info_a) sample_plugins =
  Send (mkCatalog [info_a]
          [Plugin.mkInfo "cors" "CORS headers" [] (Some cors_factory)]).
Proof. reflexivity. Qed.

(** C8: the catalogue lists, for both registries, the [Info] of every
    registered entry and nothing else, one element per entry. *)
Theorem catalog_complete (rules : gmap string Rule.Info) (plugins : gmap string Plugin.Info) :
  catalog rules plugins = Send (mkCatalog (catalog_rules rules) (catalog_plugins plugins)) /\
  (forall ri, In ri (catalog_rules rules) <-> exists name, rules !! name = Some ri) /\
  length (catalog_rules rules) = size rules /\
  (forall pi, In pi (catalog_plugins plugins) <-> exists name, plugins !! name = Some pi) /\
  length (catalog_plugins plugins) = size plugins.
Proof.
  split; [reflexivity |].
  unfold catalog_rules, catalog_plugins. rewrite !fold_append_snd. simpl.
  split; [intros ri; apply in_map_snd_map_to_list |].
  split; [by rewrite length_map, length_map_to_list |].
  split; [intros pi; apply in_map_snd_map_to_list |].
  by rewrite length_map, length_map_to_list.
Qed.

End RemovalProps.

(** ** Proxy construction and request entry *)
Module VinxiProps.
Import Vinxi.

Lemma layers_add_routes (v : Vinxi) (rs : list Route) (h : Heap) :
  layers (add_routes v rs h) = layers h.
Proof.
  revert h. induction rs as [| rt rs IH]; intros h; simpl; [done |].
  by rewrite IH.
Qed.

Lemma routers_add_routes (v : Vinxi) (rs : list Route) (h : Heap) :
  routers (add_routes v rs h) !! v_Router v =
  (fun R => mkRouter (routes R ++ rs)%list (router_parent R)) <$> routers h !! v_Router v.
Proof.
  revert h. induction rs as [| rt rs IH]; intros h; simpl.
  - destruct (routers h !! v_Router v) as [[rs0 p0] |]; simpl; [by rewrite app_nil_r | done].
  - rewrite IH. simpl. rewrite lookup_alter_eq.
    destruct (routers h !! v_Router v) as [[rs0 p0] |]; simpl; [| done].
    unfold router_Route; destruct rt; simpl. rewrite <- app_assoc. reflexivity.
Qed.

(** The state [New] leaves behind: the root layer and the router it
    allocated, as they are stored in the heap. *)
Lemma New_heap (md : Metadata) (h0 : Heap) :
  layers (fst (New md h0)) !! v_Layer (snd (New md h0)) =
    Some (mkLayer [(RequestPhase, Tail, HRouter (v_Router (snd (New md h0))))]
                  (Some (HForwarder DefaultForwarder)) None) /\
  routers (fst (New md h0)) !! v_Router (snd (New md h0)) =
    Some (mkRouter [] (Some (v_Layer (snd (New md h0))))).
Proof.
  unfold New, alloc_layer, alloc_router, UseFinalHandler, update_layer, update_router.
  simpl. rewrite !lookup_alter_eq, !lookup_insert_eq. split; reflexivity.
Qed.

Example New_sample_forwards :
  let '(h, v) := New (NewMetadata "id1" "host" "linux") (mkHeap ∅ ∅) in
  let h' := Vinxi_Route v "GET" "/users/:id" "users" h in
  ServeHTTP h' v (mkRequest "GET" "/health" "example.org" "" ∅) =
    Ok (Forwarded DefaultForwarder (prepare (mkRequest "GET" "/health" "example.org" "" ∅))) /\
  ServeHTTP h' v (mkRequest "GET" "/users/7" "example.org" "" ∅) =
    Ok (RouteHandled "users" (prepare (mkRequest "GET" "/users/7" "example.org" "" ∅))).
Proof. split; vm_compute; reflexivity. Qed.

(** C4: [New] registers the router alone, at the Tail priority of the
    "request" phase of the root layer, makes the root layer the router's
    parent, and installs [DefaultForwarder] as the final handler; whatever
    routes are added afterwards, a request that matches none of them runs
    through to the forwarder. *)
Theorem New_falls_through_to_forwarder (md : Metadata) (h0 : Heap) :
  let h := fst (New md h0) in
  let v := snd (New md h0) in
  (exists L, layers h !! v_Layer v = Some L /\
     entries L = [(RequestPhase, Tail, HRouter (v_Router v))] /\
     final L = Some (HForwarder DefaultForwarder) /\ parent L = None) /\
  (exists R, routers h !! v_Router v = Some R /\ router_parent R = Some (v_Layer v)) /\
  (forall (rs : list Route) (r : Request),
     router_match (mkRouter rs (Some (v_Layer v))) r = None ->
     Layer_Run (add_routes v rs h) (v_Layer v) RequestPhase r = Ok (Forwarded DefaultForwarder r)).
Proof.
  pose proof (New_heap md h0) as [HL HR]. revert HL HR.
  destruct (New md h0) as [h v]. simpl. intros HL HR.
  split; [eexists; split; [exact HL | repeat split] |].
  split; [eexists; split; [exact HR | reflexivity] |].
  intros rs r Hm. unfold Layer_Run. rewrite layers_add_routes, HL.
  unfold phase_handlers, bucket. simpl.
  rewrite routers_add_routes, HR. simpl. rewrite Hm. reflexivity.
Qed.

Lemma New_falls_through_to_forwarder_witness :
  router_match (mkRouter [mkRoute "GET" "/users/:id" "users"]
                  (Some (v_Layer (snd (New (NewMetadata "id1" "host" "linux") (mkHeap ∅ ∅))))))
    (mkRequest "GET" "/health" "example.org" "example.org" ∅) = None /\
  Layer_Run (add_routes (snd (New (NewMetadata "id1" "host" "linux") (mkHeap ∅ ∅)))
               [mkRoute "GET" "/users/:id" "users"]
               (fst (New (NewMetadata "id1" "host" "linux") (mkHeap ∅ ∅))))
            (v_Layer (snd (New (NewMetadata "id1" "host" "linux") (mkHeap ∅ ∅)))) RequestPhase
            (mkRequest "GET" "/health" "example.org" "example.org" ∅)
  = Ok (Forwarded DefaultForwarder (mkRequest "GET" "/health" "example.org" "example.org" ∅)).
Proof.
  split; [vm_compute; reflexivity |].
  apply (proj2 (proj2 (New_falls_through_to_forwarder (NewMetadata "id1" "host" "linux") (mkHeap ∅ ∅)))).
  vm_compute. reflexivity.
Defined.

(** C3: [ServeHTTP] runs the root layer's "request" phase on the request
    after two writes: the inbound host stored under "vinxi.host" and the URL
    host set to it; the default forwarder has host preservation on, so the
    request it sends upstream targets, and carries, the original host. *)
Theorem ServeHTTP_preserves_host (h : Heap) (v : Vinxi) (r : Request) :
  ServeHTTP h v r = Layer_Run h (v_Layer v) "request" (prepare r) /\
  ctx (prepare r) !! "vinxi.host" = Some (Host r) /\
  URL_Host (prepare r) = Host r /\
  Host (prepare r) = Host r /\ Method (prepare r) = Method r /\ Path (prepare r) = Path r /\
  passHost DefaultForwarder = true /\
  (forall proxy_host : string,
     forward_request DefaultForwarder proxy_host (prepare r) = mkOutbound (Host r) (Host r)).
Proof.
  repeat split.
  unfold prepare, context_Set; simpl. apply lookup_insert_eq.
Qed.

End VinxiProps.

(** ** The JSON views of src/manager/api.go *)
Module ViewsProps.
Import Plugin Manager Controllers Views.

(** The indexed fill of a slice of the right length: [Ok] with one image
    per element, in order, when no element's computation panics; the panic
    otherwise. *)
Lemma assign_loop_spec {A B} (f : A -> result B) (g : A -> B) (m : string)
  (xs : list A) (i : nat) (buf : list B) :
  (forall x, In x xs -> f x = Ok (g x) \/ f x = Panic m) ->
  i + length xs = length buf ->
  assign_loop f i xs buf =
  if forallb (fun x => match f x with Ok _ => true | Panic _ => false end) xs
  then Ok (take i buf ++ map g xs)%list else Panic m.
Proof.
  revert i buf. induction xs as [| x xs IH]; intros i buf Hf Hlen; simpl in *.
  - rewrite app_nil_r, take_ge by lia. reflexivity.
  - destruct (Hf x (or_introl eq_refl)) as [Hx | Hx]; rewrite Hx; simpl; [| reflexivity].
    unfold slice_set. rewrite decide_True by lia. simpl.
    rewrite IH by (auto || rewrite length_insert; lia).
    destruct (forallb _ xs); [| reflexivity].
    rewrite (take_S_r _ _ (g x)) by (apply list_lookup_insert_eq; lia).
    rewrite take_insert_ge by lia. rewrite <- app_assoc. reflexivity.
Qed.

Lemma createPlugins_api_cases (ps : list Plugin) :
  createPlugins_api ps = match ps with [] => Ok [] | _ => Panic idx_msg end.
Proof. destruct ps; reflexivity. Qed.

Example createRules_sample :
  createRules (mkScope "s1" "api" [Rule.mkRule "r1" "path" "" [("path", "/api")]] []) =
  Ok [mkJSONRule "r1" "path" "" [("path", "/api")] []].
Proof. reflexivity. Qed.

(** [createRules] never panics: it sizes its slice by the number of rules
    first, and gives the rules' views in order; each view has the rule's
    ID, name, description and configuration and an empty metadata map. *)
Theorem createRules_total (s : Scope) :
  createRules s = Ok (map createRule (scope_Rules s)) /\
  (forall r, In r (scope_Rules s) -> jr_Metadata (createRule r) = [] /\
     jr_ID (createRule r) = Rule.rule_id r /\ jr_Config (createRule r) = Rule.rule_config r).
Proof.
  split; [| intros r _; repeat split].
  unfold createRules.
  rewrite (assign_loop_spec _ createRule "") by
    (auto || unfold make_slice; rewrite repeat_length; lia).
  rewrite take_0. simpl.
  assert (Hall : forall l : list Rule.Rule, forallb (fun _ => true) l = true)
    by (induction l; simpl; auto).
  by rewrite Hall.
Qed.

(** [createScope] panics exactly when the scope has a plugin (through
    [createPlugins]); a scope without plugins gets its ID, name and rule
    views and an empty plugin list. *)
Theorem createScope_cases (s : Scope) :
  createScope s =
  match scope_Plugins s with
  | [] => Ok (mkJSONScope (scope_ID s) (scope_Name s) (map createRule (scope_Rules s)) [])
  | _ => Panic idx_msg
  end.
Proof.
  unfold createScope. rewrite (proj1 (createRules_total s)). simpl.
  rewrite createPlugins_api_cases. destruct (scope_Plugins s); reflexivity.
Qed.

Lemma createScopes_spec (ss : list Scope) :
  createScopes ss =
  if forallb has_no_plugin ss
  then Ok (map (fun s => mkJSONScope (scope_ID s) (scope_Name s) (map createRule (scope_Rules s)) []) ss)
  else Panic idx_msg.
Proof.
  unfold createScopes.
  rewrite (assign_loop_spec _ (fun s => mkJSONScope (scope_ID s) (scope_Name s)
                                   (map createRule (scope_Rules s)) []) idx_msg).
  - rewrite take_0. simpl.
    replace (forallb (fun x => match createScope x with Ok _ => true | Panic _ => false end) ss)
      with (forallb has_no_plugin ss); [reflexivity |].
    induction ss as [| s ss IH]; simpl; [done |].
    rewrite IH, createScope_cases. unfold has_no_plugin. by destruct (scope_Plugins s).
  - intros s _. rewrite createScope_cases. destruct (scope_Plugins s); auto.
  - unfold make_slice. rewrite repeat_length. lia.
Qed.

(** [GET /instances] answers without panicking exactly when no scope of any
    instance holds a plugin; it then sends one view per instance, in order,
    each with the instance's ID, name and description, no metadata, and its
    scopes' views. *)
Theorem get_instances_spec (is : list Instance) :
  get_instances is =
  if forallb (fun i => forallb has_no_plugin (inst_Scopes i)) is
  then Ok (Send (map (fun i => mkJSONInstance (inst_ID i) (inst_Name i) (inst_Description i) []
                               (map scope_view (inst_Scopes i))) is))
  else Panic idx_msg.
Proof.
  unfold get_instances, createInstances.
  assert (H : forall acc, createInstances_loop is acc =
    if forallb (fun i => forallb has_no_plugin (inst_Scopes i)) is
    then Ok (acc ++ map (fun i => mkJSONInstance (inst_ID i) (inst_Name i) (inst_Description i) []
                               (map scope_view (inst_Scopes i))) is)%list
    else Panic idx_msg).
  { induction is as [| i is IH]; intros acc; simpl.
    - by rewrite app_nil_r.
    - unfold createInstance. rewrite createScopes_spec.
      destruct (forallb has_no_plugin (inst_Scopes i)); simpl; [| reflexivity].
      rewrite IH. destruct (forallb _ is); [| reflexivity].
      unfold slice_append, scope_view. by rewrite <- app_assoc. }
  rewrite H. destruct (forallb _ is); reflexivity.
Qed.

Example get_instances_sample :
  get_instances [mkInstance "i1" "main" "" [mkScope "s1" "api" [] [Samples.sample_plugin true]]]
  = Panic idx_msg.
Proof. reflexivity. Qed.

(** [List] of src/unnamed/part_000 serializes the plugins of the scope when
    the request names one, and the manager's plugins otherwise, one view per
    plugin in order; it never panics. *)
Theorem List_selects_layer (scope : option Scope) (mgr : list Plugin) :
  List scope mgr =
  Ok (Send (map createPlugin (match scope with Some s => scope_Plugins s | None => mgr end))).
Proof.
  unfold List, createPlugins_part000. simpl.
  assert (H : forall ps acc, createPlugins_part000_loop ps acc = (acc ++ map createPlugin ps)%list).
  { induction ps as [| p ps IH]; intros acc; simpl; [by rewrite app_nil_r |].
    rewrite IH. unfold slice_append. by rewrite <- app_assoc. }
  by rewrite H.
Qed.

(** A successful [Create] (non-empty name, registered factory accepting the
    configuration) appends the new plugin to the manager's plugin set and
    answers with its view. *)
Theorem Create_success (plugins : gmap string Plugin.Info) (name : string) (params : Config)
  (mgr : list Plugin) (factory : Plugin.Factory) (inst : Plugin) :
  name <> "" -> Plugin.Get plugins name = Some factory -> factory params = inl inst ->
  Create plugins (Some (mkData name params)) mgr = ((mgr ++ [inst])%list, Send (createPlugin inst)).
Proof.
  intros Hn Hg Hf. unfold Create; simpl. rewrite decide_False by exact Hn.
  by rewrite Hg, Hf.
Qed.

Lemma Create_success_witness :
  Create Samples.sample_plugins (Some (mkData "cors" [("origin", "*")])) [] =
  ([mkPlugin "p9" "cors" "CORS headers" true [("origin", "*")] []],
   Send (createPlugin (mkPlugin "p9" "cors" "CORS headers" true [("origin", "*")] []))).
Proof.
  apply (Create_success _ "cors" _ [] Samples.cors_factory); [discriminate | reflexivity | reflexivity].
Defined.

(** A create request with an empty name is refused with 400 before any
    registry lookup, even when the plugin registry has an entry under the
    empty name, and the plugin set is left unchanged. *)
Theorem Create_empty_name (plugins : gmap string Plugin.Info) (params : Config) (mgr : list Plugin) :
  Create plugins (Some (mkData "" params)) mgr = (mgr, SendError 400 "Missing required param: name").
Proof. reflexivity. Qed.

End ViewsProps.

(** ** More of the rule registry *)
Module RuleExtraProps.
Import Rule Samples.

(** [Register] touches only its own name: for every other name, [Exists],
    [Get], [GetInfo] and [Init] answer as before. *)
Theorem Register_frame (rules : gmap string Info) (r : Info) (n : string) (opts : Config) :
  n <> Name r ->
  Exists (Register rules r) n = Exists rules n /\
  Get (Register rules r) n = Get rules n /\
  GetInfo (Register rules r) n = GetInfo rules n /\
  Init (Register rules r) n opts = Init rules n opts.
Proof.
  intros Hn. assert (H : Register rules r !! n = rules !! n)
    by (unfold Register; apply lookup_insert_ne; congruence).
  unfold Init, Exists, Get, GetInfo. by rewrite H.
Qed.

Lemma Register_frame_witness :
  "host" <> Name info_a /\ Init (Register ∅ info_a) "host" [] = Init ∅ "host" [].
Proof.
  split; [discriminate |].
  exact (proj2 (proj2 (proj2 (Register_frame ∅ info_a "host" [] ltac:(discriminate))))).
Defined.

(** [Init] returns a rule exactly when the name is registered with a
    non-nil factory, and the rule is that factory applied to the options. *)
Theorem Init_ok_iff (rules : gmap string Info) (name : string) (opts : Config) (x : Rule) :
  Init rules name opts = Ok x <->
  exists i f, rules !! name = Some i /\ Factory_of i = Some f /\ x = f opts.
Proof.
  unfold Init, Exists, GetInfo. split.
  - destruct (rules !! name) as [i |]; simpl; [| discriminate].
    destruct (Factory_of i) as [f |] eqn:Hf; [| discriminate].
    intros Hx. injection Hx as <-. eauto.
  - intros (i & f & Hi & Hf & ->). rewrite Hi. simpl. by rewrite Hf.
Qed.

(** A name registered with a nil factory exists, [Get] gives nil for it,
    and [Init] on it passes the existence check and then panics on the nil
    call. *)
Theorem registered_nil_factory (rules : gmap string Info) (name : string) (i : Info) (opts : Config) :
  rules !! name = Some i -> Factory_of i = None ->
  Exists rules name = true /\ Get rules name = None /\ Init rules name opts = Panic nil_deref_msg.
Proof.
  intros Hi Hf. unfold Init, Exists, Get, GetInfo. rewrite Hi, Hf. auto.
Qed.

Lemma registered_nil_factory_witness :
  Init (Register ∅ (mkInfo "bare" "" [] None)) "bare" [] = Panic nil_deref_msg.
Proof.
  apply (registered_nil_factory _ "bare" (mkInfo "bare" "" [] None) []); reflexivity.
Defined.

(** Registrations under different names commute. *)
Theorem Register_comm (rules : gmap string Info) (a b : Info) :
  Name a <> Name b -> Register (Register rules a) b = Register (Register rules b) a.
Proof. intros Hne. unfold Register. apply insert_insert_ne. congruence. Qed.

Lemma Register_comm_witness :
  Register (Register ∅ info_a) (mkInfo "host" "" [] None) =
  Register (Register ∅ (mkInfo "host" "" [] None)) info_a.
Proof. apply Register_comm. discriminate. Defined.

End RuleExtraProps.

(** ** More of the proxy: middleware, phases and forwarding *)
Module VinxiExtraProps.
Import Vinxi VinxiOps.







Example Use_sample :
  let '(h, v) := New (NewMetadata "id1" "host" "linux") (mkHeap ∅ ∅) in
  let h' := Get v "/health" "health"
              (Use v [HFunc "auth" (fun r => bool_decide (Path r = "/admin"))] h) in
  ServeHTTP h' v (mkRequest "GET" "/admin" "example.org" "" ∅) =
    Ok (Handled "auth" (prepare (mkRequest "GET" "/admin" "example.org" "" ∅))) /\
  ServeHTTP h' v (mkRequest "GET" "/health" "example.org" "" ∅) =
    Ok (RouteHandled "health" (prepare (mkRequest "GET" "/health" "example.org" "" ∅))).
Proof. split; vm_compute; reflexivity. Qed.



(** [Forward(uri)] after [New] replaces [DefaultForwarder] as the final
    handler: a request that no route matches is answered by the fixed-URI
    forwarder. *)
Theorem Forward_replaces_final (md : Metadata) (h0 : Heap) (uri : string)
  (rs : list Route) (r : Request) :
  let h := fst (New md h0) in
  let v := snd (New md h0) in
  router_match (mkRouter rs (Some (v_Layer v))) r = None ->
  Layer_Run (add_routes v rs (Forward v uri h)) (v_Layer v) RequestPhase r =
  Ok (Handled ("forward.To " ++ uri) r).
Proof.
  pose proof (VinxiProps.New_heap md h0) as [HL HR]. revert HL HR.
  destruct (New md h0) as [h v]. simpl. intros HL HR Hm.
  unfold Layer_Run. rewrite VinxiProps.layers_add_routes.
  unfold Forward, UseFinalHandler, update_layer. simpl. rewrite lookup_alter_eq, HL. simpl.
  unfold phase_handlers, bucket. simpl.
  rewrite VinxiProps.routers_add_routes. simpl. rewrite HR. simpl. rewrite Hm. reflexivity.
Qed.

Lemma Forward_replaces_final_witness :
  router_match (mkRouter [] (Some (v_Layer (snd (New (NewMetadata "id1" "host" "linux") (mkHeap ∅ ∅))))))
    (mkRequest "GET" "/" "example.org" "example.org" ∅) = None /\
  Layer_Run (add_routes (snd (New (NewMetadata "id1" "host" "linux") (mkHeap ∅ ∅))) []
               (Forward (snd (New (NewMetadata "id1" "host" "linux") (mkHeap ∅ ∅))) "http://backend"
                  (fst (New (NewMetadata "id1" "host" "linux") (mkHeap ∅ ∅)))))
            (v_Layer (snd (New (NewMetadata "id1" "host" "linux") (mkHeap ∅ ∅)))) RequestPhase
            (mkRequest "GET" "/" "example.org" "example.org" ∅)
  = Ok (Handled ("forward.To " ++ "http://backend") (mkRequest "GET" "/" "example.org" "example.org" ∅)).
Proof.
  split; [vm_compute; reflexivity |].
  apply (Forward_replaces_final (NewMetadata "id1" "host" "linux") (mkHeap ∅ ∅) "http://backend" []).
  vm_compute. reflexivity.
Defined.

(** The request preparation of [ServeHTTP] is idempotent, and it keeps every
    context entry other than "vinxi.host". *)
Theorem prepare_idempotent (r : Request) :
  prepare (prepare r) = prepare r /\
  (forall k, k <> "vinxi.host" -> ctx (prepare r) !! k = ctx r !! k).
Proof.
  split.
  - unfold prepare, context_Set, set_URL_Host. simpl. by rewrite insert_insert_eq.
  - intros k Hk. unfold prepare, context_Set. simpl. apply lookup_insert_ne. congruence.
Qed.

End VinxiExtraProps.
